(** * Chat UI controller of the Web Helpdesk page (static/app.js)

    A shallow embedding of the browser-side script.  The page is a record
    of the DOM state the script reads and writes, plus an ordered log of
    every observable effect (DOM writes, network requests, calls into the
    speech engines).  [handleSend] is [async]: it runs synchronously up to
    the [await] on the network, so it is split into a synchronous part
    ([handleSend_sync]) that ends with the pending request, and the
    continuation run when the response lands ([handleSend_resume]). *)

From Stdlib Require Import List String Ascii NArith QArith Bool Lia.
Import ListNotations.

#[local] Set Warnings "-register-all".

(** ** JavaScript strings and values *)

(** A JavaScript string: a sequence of UTF-16 code units. *)
Definition jsstr := list N.

Fixpoint of_string (s : string) : jsstr :=
  match s with
  | EmptyString => []
  | String c s' => N_of_ascii c :: of_string s'
  end.

(** WhiteSpace and LineTerminator code units, as removed by
    [String.prototype.trim]. *)
Definition is_js_space (c : N) : bool :=
  match c with
  | 9 | 10 | 11 | 12 | 13 | 32 | 160 | 5760
  | 8232 | 8233 | 8239 | 8287 | 12288 | 65279 => true
  | _ => (8192 <=? c)%N && (c <=? 8202)%N
  end%N.

Fixpoint trim_start (s : jsstr) : jsstr :=
  match s with
  | [] => []
  | c :: s' => if is_js_space c then trim_start s' else s
  end.

Definition trim_end (s : jsstr) : jsstr := rev (trim_start (rev s)).

(** [String.prototype.trim]. *)
Definition trim (s : jsstr) : jsstr := trim_end (trim_start s).

(** JavaScript values that can come out of [JSON.parse] or a property
    access on its result.  Objects keep their keys in source order,
    duplicates included. *)
Inductive value :=
| VUndef
| VNull
| VBool (b : bool)
| VNum (q : Q)
| VStr (s : jsstr)
| VArr (xs : list value)
| VObj (fields : list (jsstr * value)).

(** ToBoolean. *)
Definition truthy (v : value) : bool :=
  match v with
  | VUndef | VNull => false
  | VBool b => b
  | VNum q => negb (Qeq_bool q 0)
  | VStr s => match s with [] => false | _ => true end
  | VArr _ | VObj _ => true
  end.

Fixpoint jsstr_eqb (a b : jsstr) : bool :=
  match a, b with
  | [], [] => true
  | x :: a', y :: b' => (x =? y)%N && jsstr_eqb a' b'
  | _, _ => false
  end.

(** Own property of a parsed object: [JSON.parse] keeps the last of
    duplicate keys. *)
Definition obj_get (fields : list (jsstr * value)) (k : jsstr) : value :=
  match find (fun kv => jsstr_eqb (fst kv) k) (rev fields) with
  | Some (_, v) => v
  | None => VUndef
  end.

(** Outcome of a JavaScript evaluation: a value or a thrown exception. *)
Inductive jsexn := TypeError | NetworkError | SyntaxError.

Inductive result (A : Type) :=
| Ok (a : A)
| Throw (e : jsexn).
Arguments Ok {A} a.
Arguments Throw {A} e.

(** Property access [data.k] ([answer] is not inherited from any
    prototype, so only own properties of objects are found). *)
Definition get_prop (data : value) (k : jsstr) : result value :=
  match data with
  | VUndef | VNull => Throw TypeError
  | VObj fields => Ok (obj_get fields k)
  | _ => Ok VUndef
  end.

(** ** The page *)

Inductive author := User | Bot.

(** Observable effects, in the order the script performs them. *)
Inductive effect :=
| Render (text : value) (who : author)            (** addMsg *)
| SetInput (v : jsstr)                            (** promptInput.value = v *)
| Fetch (url : jsstr) (method : jsstr) (body : value) (** fetch(url, {...}) *)
| SynthCancel                                     (** speechSynthesis.cancel() *)
| SynthSpeak (text : value) (lang : jsstr)        (** speechSynthesis.speak(u) *)
| RecStart                                        (** recognition.start() *)
| RecStop                                         (** recognition.stop() *)
| MicClassAdd                                     (** micBtn.classList.add("rec") *)
| MicClassRemove.                                 (** micBtn.classList.remove("rec") *)

Record page := {
  messages : list (value * author);  (** children of #messages *)
  input : jsstr;                     (** #prompt value *)
  speak_checked : bool;              (** #speak checked *)
  synth_supported : bool;            (** "speechSynthesis" in window *)
  recognition : bool;                (** recognition !== null (listeners attached) *)
  mic_rec : bool;                    (** micBtn.classList contains "rec" *)
  mic_disabled : bool;
  mic_title : jsstr;
  log : list effect                  (** every effect so far, oldest first *)
}.

Definition with_input (p : page) (v : jsstr) : page :=
  {| messages := messages p; input := v; speak_checked := speak_checked p;
     synth_supported := synth_supported p; recognition := recognition p;
     mic_rec := mic_rec p; mic_disabled := mic_disabled p;
     mic_title := mic_title p; log := log p ++ [SetInput v] |}.

Definition addMsg (p : page) (text : value) (who : author) : page :=
  {| messages := messages p ++ [(text, who)]; input := input p;
     speak_checked := speak_checked p; synth_supported := synth_supported p;
     recognition := recognition p; mic_rec := mic_rec p;
     mic_disabled := mic_disabled p; mic_title := mic_title p;
     log := log p ++ [Render text who] |}.

Definition emit (p : page) (e : effect) : page :=
  {| messages := messages p; input := input p;
     speak_checked := speak_checked p; synth_supported := synth_supported p;
     recognition := recognition p; mic_rec := mic_rec p;
     mic_disabled := mic_disabled p; mic_title := mic_title p;
     log := log p ++ [e] |}.

Definition set_mic_rec (p : page) (b : bool) (e : effect) : page :=
  {| messages := messages p; input := input p;
     speak_checked := speak_checked p; synth_supported := synth_supported p;
     recognition := recognition p; mic_rec := b;
     mic_disabled := mic_disabled p; mic_title := mic_title p;
     log := log p ++ [e] |}.

Definition with_recognition (p : page) (r dis : bool) (title : jsstr) : page :=
  {| messages := messages p; input := input p;
     speak_checked := speak_checked p; synth_supported := synth_supported p;
     recognition := r; mic_rec := mic_rec p;
     mic_disabled := dis; mic_title := title; log := log p |}.

(** ** askServer *)

Definition fallback : jsstr := of_string "Sorry, I couldn't understand.".

(** The request issued by [askServer question]: [POST /ask] with
    [Content-Type: application/json] and body [JSON.stringify({question})]
    (the body is kept as the value being serialised). *)
Definition ask_request (question : jsstr) : effect :=
  Fetch (of_string "/ask") (of_string "POST")
        (VObj [(of_string "question", VStr question)]).

(** What the network layer delivers for the request: a failure of
    [fetch], or a response whose body parses as JSON ([Some data]) or not
    ([None], [res.json()] rejects). *)
Inductive http :=
| NetFail
| Reply (body : option value).

(** The part of [askServer] after [await fetch(...)]:
    [const data = await res.json(); return data.answer || fallback]. *)
Definition askServer_resume (r : http) : result value :=
  match r with
  | NetFail => Throw NetworkError
  | Reply None => Throw SyntaxError
  | Reply (Some data) =>
      match get_prop data (of_string "answer") with
      | Throw e => Throw e
      | Ok a => Ok (if truthy a then a else VStr fallback)
      end
  end.

(** ** handleSend *)

(** Synchronous part: up to and including the [fetch] call made by
    [askServer(q)].  Returns the question of the pending request, if any. *)
Definition handleSend_sync (p : page) : page * option jsstr :=
  let q := trim (input p) in
  if negb (truthy (VStr q)) then (p, None)
  else
    let p1 := addMsg p (VStr q) User in
    let p2 := with_input p1 [] in
    (emit p2 (ask_request q), Some q).

Definition en_IN : jsstr := of_string "en-IN".

(** Continuation once the request settles: [addMsg(ans, "bot")] and the
    optional speech output; a rejection of [askServer] propagates. *)
Definition handleSend_resume (p : page) (r : http) : page * result unit :=
  match askServer_resume r with
  | Throw e => (p, Throw e)
  | Ok ans =>
      let p1 := addMsg p ans Bot in
      if speak_checked p1 && synth_supported p1 then
        (emit (emit p1 SynthCancel) (SynthSpeak ans en_IN), Ok tt)
      else (p1, Ok tt)
  end.

(** One invocation of [handleSend] run to completion, the request being
    answered with [r]. *)
Definition handleSend (p : page) (r : http) : page * result unit :=
  match handleSend_sync p with
  | (p1, None) => (p1, Ok tt)
  | (p1, Some _) => handleSend_resume p1 r
  end.

(** ** Event handlers *)

Inductive event :=
| SendClick
| KeyDown (key : jsstr)
| MicDown
| MicUp
| RecResult (results : list (list jsstr))  (** e.results[i][j].transcript *)
| RecError
| RecEnd.

(** The synchronous effect of dispatching one event; the second component
    is the question of a request left pending by [handleSend].  Events of
    the microphone button and of the recognition engine only have handlers
    when [recognition] was created at startup; a handler that throws
    ([e.results[0][0]] missing) has no effect. *)
Definition step (p : page) (ev : event) : page * option jsstr :=
  match ev with
  | SendClick => handleSend_sync p
  | KeyDown k => if jsstr_eqb k (of_string "Enter") then handleSend_sync p else (p, None)
  | MicDown =>
      if recognition p then (emit (set_mic_rec p true MicClassAdd) RecStart, None)
      else (p, None)
  | MicUp => if recognition p then (emit p RecStop, None) else (p, None)
  | RecResult rs =>
      if recognition p then
        match rs with
        | (text :: _) :: _ => handleSend_sync (with_input p text)
        | _ => (p, None)
        end
      else (p, None)
  | RecError | RecEnd =>
      if recognition p then (set_mic_rec p false MicClassRemove, None) else (p, None)
  end.

(** Startup feature detection:
    ["webkitSpeechRecognition" in window || "SpeechRecognition" in window]. *)
Definition init (p : page) (sr_supported : bool) : page :=
  if sr_supported then with_recognition p true (mic_disabled p) (mic_title p)
  else with_recognition p false true
         (of_string "Voice input not supported in this browser").

(** Index of the first logged effect satisfying [f] ([length] if none). *)
Fixpoint first_index (f : effect -> bool) (l : list effect) : nat :=
  match l with
  | [] => 0
  | e :: l' => if f e then 0 else S (first_index f l')
  end.

Definition is_clear (e : effect) : bool :=
  match e with SetInput [] => true | _ => false end.

Definition is_user_render (e : effect) : bool :=
  match e with Render _ User => true | _ => false end.

Definition is_fetch (e : effect) : bool :=
  match e with Fetch _ _ _ => true | _ => false end.

Definition is_bot_render (e : effect) : bool :=
  match e with Render _ Bot => true | _ => false end.

Definition is_synth (e : effect) : bool :=
  match e with SynthSpeak _ _ | SynthCancel => true | _ => false end.

Definition is_rec_engine (e : effect) : bool :=
  match e with RecStart | RecStop => true | _ => false end.

(** A page as loaded: empty transcript, given input and checkbox. *)
Definition page0 (inp : string) (chk synth : bool) : page :=
  {| messages := []; input := of_string inp; speak_checked := chk;
     synth_supported := synth; recognition := true; mic_rec := false;
     mic_disabled := false; mic_title := []; log := [] |}.

Definition hello_reply : http :=
  Reply (Some (VObj [(of_string "answer", VStr (of_string "Hello"))])).

Example handleSend_hi :
  messages (fst (handleSend (page0 " Hi " false true) hello_reply))
  = [(VStr (of_string "Hi"), User); (VStr (of_string "Hello"), Bot)].
Proof. reflexivity. Qed.

Example handleSend_blank :
  handleSend_sync (page0 "   " false true) = (page0 "   " false true, None).
Proof. reflexivity. Qed.

(** ** Properties of [trim] *)

Definition starts_nonspace (s : jsstr) : Prop :=
  match s with [] => True | c :: _ => is_js_space c = false end.

Lemma trim_start_idem (s : jsstr) : trim_start (trim_start s) = trim_start s.
Proof.
  induction s as [|c s IH]; simpl; [reflexivity|].
  destruct (is_js_space c) eqn:E; [exact IH|]. simpl. rewrite E. reflexivity.
Qed.

Lemma trim_start_suffix (s : jsstr) : exists w, s = w ++ trim_start s.
Proof.
  induction s as [|c s [w IH]]; simpl.
  - exists []. reflexivity.
  - destruct (is_js_space c).
    + exists (c :: w). simpl. rewrite <- IH. reflexivity.
    + exists []. reflexivity.
Qed.

Lemma trim_start_head (s : jsstr) : starts_nonspace (trim_start s).
Proof.
  induction s as [|c s IH]; simpl; [exact I|].
  destruct (is_js_space c) eqn:E; [exact IH | exact E].
Qed.

Lemma trim_start_fix (s : jsstr) : starts_nonspace s -> trim_start s = s.
Proof. destruct s as [|c s]; simpl; [reflexivity|]. intros E. rewrite E. reflexivity. Qed.

Lemma starts_nonspace_prefix (a b : jsstr) :
  starts_nonspace (a ++ b) -> starts_nonspace a.
Proof. destruct a; simpl; auto. Qed.

Lemma trim_idem (s : jsstr) : trim (trim s) = trim s.
Proof.
  unfold trim, trim_end.
  set (t := trim_start s).
  assert (Ht : starts_nonspace t) by apply trim_start_head.
  set (u := trim_start (rev t)).
  destruct (trim_start_suffix (rev t)) as [w Hw]. fold u in Hw.
  assert (Htu : t = rev u ++ rev w).
  { rewrite <- rev_app_distr, <- Hw, rev_involutive. reflexivity. }
  rewrite (trim_start_fix (rev u)).
  - rewrite rev_involutive. unfold u. rewrite trim_start_idem. reflexivity.
  - apply (starts_nonspace_prefix _ (rev w)). rewrite <- Htu. exact Ht.
Qed.

(** ** Shape of one send *)

Lemma handleSend_sync_send (p : page) :
  trim (input p) <> [] ->
  handleSend_sync p =
    (emit (with_input (addMsg p (VStr (trim (input p))) User) []) (ask_request (trim (input p))),
     Some (trim (input p))).
Proof.
  unfold handleSend_sync. destruct (trim (input p)) as [|c l]; [congruence|].
  reflexivity.
Qed.

Lemma handleSend_sync_blank (p : page) :
  trim (input p) = [] -> handleSend_sync p = (p, None).
Proof. unfold handleSend_sync. intros ->. reflexivity. Qed.

Lemma handleSend_send (p : page) (r : http) :
  trim (input p) <> [] ->
  handleSend p r =
    handleSend_resume
      (emit (with_input (addMsg p (VStr (trim (input p))) User) []) (ask_request (trim (input p))))
      r.
Proof. intros H. unfold handleSend. rewrite (handleSend_sync_send p H). reflexivity. Qed.

(** ** Claims *)

(** C1: when the trimmed input is non-empty and the request is answered
    ([askServer] resolves to [ans]), one run of [handleSend] appends exactly
    the user message (the trimmed input) followed by the bot message [ans]
    to the transcript, and resolves. *)
Theorem handleSend_one_exchange (p : page) (r : http) (ans : value)
  (Hq : trim (input p) <> []) (Hr : askServer_resume r = Ok ans) :
  messages (fst (handleSend p r))
    = messages p ++ [(VStr (trim (input p)), User); (ans, Bot)]
  /\ snd (handleSend p r) = Ok tt.
Proof.
  rewrite (handleSend_send p r Hq). unfold handleSend_resume. rewrite Hr.
  simpl. destruct (speak_checked p && synth_supported p); simpl;
  rewrite <- app_assoc; split; reflexivity.
Qed.

Lemma handleSend_one_exchange_witness :
  trim (of_string "Hi") <> [] /\
  askServer_resume hello_reply = Ok (VStr (of_string "Hello")) /\
  messages (fst (handleSend (page0 "Hi" true true) hello_reply))
    = [(VStr (of_string "Hi"), User); (VStr (of_string "Hello"), Bot)].
Proof.
  split; [discriminate|]. split; [reflexivity|].
  exact (proj1 (handleSend_one_exchange (page0 "Hi" true true) hello_reply
                  (VStr (of_string "Hello")) ltac:(discriminate) eq_refl)).
Defined.

(** C2: if the parsed body's [answer] property evaluates to a falsy value
    (absent, [""], [null], [false], [0]), [askServer] returns the fallback
    string and that string is the rendered bot message; if it is a
    non-empty string, exactly that string is returned. *)
Theorem askServer_answer_or_fallback (data a : value)
  (Ha : get_prop data (of_string "answer") = Ok a) :
  (truthy a = false ->
     askServer_resume (Reply (Some data)) = Ok (VStr fallback)
     /\ forall p, trim (input p) <> [] ->
          messages (fst (handleSend p (Reply (Some data))))
            = messages p ++ [(VStr (trim (input p)), User); (VStr fallback, Bot)])
  /\ (forall s, a = VStr s -> s <> [] ->
        askServer_resume (Reply (Some data)) = Ok (VStr s)).
Proof.
  assert (Hr : askServer_resume (Reply (Some data))
               = Ok (if truthy a then a else VStr fallback))
    by (unfold askServer_resume; rewrite Ha; reflexivity).
  split.
  - intros Hf. rewrite Hf in Hr. split; [exact Hr|].
    intros p Hq. exact (proj1 (handleSend_one_exchange p _ _ Hq Hr)).
  - intros s -> Hs. rewrite Hr. destruct s; [congruence|reflexivity].
Qed.

Lemma askServer_answer_or_fallback_witness :
  get_prop (VObj []) (of_string "answer") = Ok VUndef /\
  askServer_resume (Reply (Some (VObj []))) = Ok (VStr fallback).
Proof.
  split; [reflexivity|].
  exact (proj1 (proj1 (askServer_answer_or_fallback (VObj []) VUndef eq_refl) eq_refl)).
Defined.

(** C3: when the input trims to the empty string, [handleSend] changes
    nothing: same page (transcript, input and effect log, hence no
    request), no pending request. *)
Theorem handleSend_blank_noop (p : page) (r : http)
  (Hq : trim (input p) = []) :
  handleSend_sync p = (p, None) /\ handleSend p r = (p, Ok tt).
Proof.
  unfold handleSend. rewrite (handleSend_sync_blank p Hq). split; reflexivity.
Qed.

Lemma handleSend_blank_noop_witness :
  trim (input (page0 " " true true)) = [] /\
  handleSend (page0 " " true true) NetFail = (page0 " " true true, Ok tt).
Proof.
  split; [reflexivity|].
  exact (proj2 (handleSend_blank_noop (page0 " " true true) NetFail eq_refl)).
Defined.

(** C4: when the request fails or the body is not JSON, [handleSend]
    rejects; the only effects are those of its synchronous part (user
    message, cleared input, request): no bot message, no speech, and the
    user message stays in the transcript. *)
Theorem handleSend_failure_propagates (p : page) (r : http)
  (Hq : trim (input p) <> []) (Hr : r = NetFail \/ r = Reply None) :
  let q := trim (input p) in
  (exists e, snd (handleSend p r) = Throw e)
  /\ messages (fst (handleSend p r)) = messages p ++ [(VStr q, User)]
  /\ log (fst (handleSend p r))
       = log p ++ [Render (VStr q) User; SetInput []; ask_request q].
Proof.
  intros q. rewrite (handleSend_send p r Hq). fold q.
  destruct Hr as [-> | ->]; simpl; rewrite <- !app_assoc;
  (split; [eexists; reflexivity | split; reflexivity]).
Qed.

Lemma handleSend_failure_propagates_witness :
  snd (handleSend (page0 "Hi" true true) NetFail) = Throw NetworkError /\
  messages (fst (handleSend (page0 "Hi" true true) NetFail))
    = [(VStr (of_string "Hi"), User)].
Proof.
  split; [reflexivity|].
  exact (proj1 (proj2 (handleSend_failure_propagates (page0 "Hi" true true) NetFail
                         ltac:(discriminate) (or_introl eq_refl)))).
Defined.

(** C5: after a successful send, the effects following the rendered answer
    are a cancellation then exactly one [speak] of the answer with the
    fixed locale "en-IN" when the checkbox is on and synthesis is
    supported, and nothing otherwise. *)
Theorem handleSend_speech (p : page) (r : http) (ans : value)
  (Hq : trim (input p) <> []) (Hr : askServer_resume r = Ok ans) :
  let q := trim (input p) in
  log (fst (handleSend p r))
    = log p ++ [Render (VStr q) User; SetInput []; ask_request q; Render ans Bot]
        ++ (if speak_checked p && synth_supported p
            then [SynthCancel; SynthSpeak ans en_IN] else []).
Proof.
  intros q. rewrite (handleSend_send p r Hq). fold q.
  unfold handleSend_resume. rewrite Hr. simpl.
  destruct (speak_checked p && synth_supported p); simpl;
  rewrite <- !app_assoc; reflexivity.
Qed.

Lemma handleSend_speech_witness :
  log (fst (handleSend (page0 "Hi" true true) hello_reply))
    = [Render (VStr (of_string "Hi")) User; SetInput []; ask_request (of_string "Hi");
       Render (VStr (of_string "Hello")) Bot;
       SynthCancel; SynthSpeak (VStr (of_string "Hello")) en_IN].
Proof.
  exact (handleSend_speech (page0 "Hi" true true) hello_reply (VStr (of_string "Hello"))
           ltac:(discriminate) eq_refl).
Defined.

(** The order of steps stated for [handleSend]: clear the input, render
    the user message, issue the request, render the answer. *)
Definition clear_render_fetch_answer (l : list effect) : Prop :=
  (first_index is_clear l < first_index is_user_render l
  /\ first_index is_user_render l < first_index is_fetch l
  /\ first_index is_fetch l < first_index is_bot_render l)%nat.

(** C6 (as stated, refuted): on input "Hi" the user message is rendered
    before the input is cleared, so the stated order does not hold. *)
Lemma handleSend_order_counterexample :
  ~ clear_render_fetch_answer (log (fst (handleSend (page0 "Hi" false true) hello_reply))).
Proof. unfold clear_render_fetch_answer. simpl. lia. Qed.

(** C6 (amended): with a non-empty trimmed input, the synchronous part of
    [handleSend] renders the user message, then clears the input, then
    issues the request, and stops there with the input empty; the answer
    is rendered as a bot message once the response lands. *)
Theorem handleSend_step_order (p : page) (r : http) (ans : value)
  (Hq : trim (input p) <> []) (Hr : askServer_resume r = Ok ans) :
  let q := trim (input p) in
  exists p1,
    handleSend_sync p = (p1, Some q)
    /\ input p1 = []
    /\ log p1 = log p ++ [Render (VStr q) User; SetInput []; ask_request q]
    /\ handleSend p r = handleSend_resume p1 r
    /\ exists rest, log (fst (handleSend_resume p1 r)) = log p1 ++ Render ans Bot :: rest.
Proof.
  intros q. rewrite (handleSend_sync_send p Hq). fold q.
  eexists. split; [reflexivity|]. split; [reflexivity|].
  split; [simpl; rewrite <- !app_assoc; reflexivity|].
  split; [apply handleSend_send; exact Hq|].
  unfold handleSend_resume. rewrite Hr. simpl.
  destruct (speak_checked p && synth_supported p); simpl.
  - eexists. rewrite <- !app_assoc. reflexivity.
  - exists []. reflexivity.
Qed.

Lemma handleSend_step_order_witness :
  exists p1,
    handleSend_sync (page0 "Hi" false true) = (p1, Some (of_string "Hi"))
    /\ input p1 = []
    /\ log p1 = [Render (VStr (of_string "Hi")) User; SetInput []; ask_request (of_string "Hi")]
    /\ handleSend (page0 "Hi" false true) hello_reply = handleSend_resume p1 hello_reply
    /\ exists rest, log (fst (handleSend_resume p1 hello_reply))
                      = log p1 ++ Render (VStr (of_string "Hello")) Bot :: rest.
Proof.
  exact (handleSend_step_order (page0 "Hi" false true) hello_reply (VStr (of_string "Hello"))
           ltac:(discriminate) eq_refl).
Defined.

(** C7: a recognition result writes the first alternative's transcript
    into the input field and runs [handleSend], i.e. it has exactly the
    effect of pressing Send with that text in the input. *)
Theorem recognition_result_sends (p : page) (text : jsstr)
  (alts : list jsstr) (rest : list (list jsstr))
  (Hrec : recognition p = true) :
  input (with_input p text) = text
  /\ step p (RecResult ((text :: alts) :: rest)) = handleSend_sync (with_input p text)
  /\ step p (RecResult ((text :: alts) :: rest)) = step (with_input p text) SendClick.
Proof.
  split; [reflexivity|]. simpl. rewrite Hrec. split; reflexivity.
Qed.

Lemma recognition_result_sends_witness :
  step (page0 "" false true) (RecResult [[of_string " Hi "]])
  = handleSend_sync (with_input (page0 "" false true) (of_string " Hi ")).
Proof.
  exact (proj1 (proj2 (recognition_result_sends (page0 "" false true)
                         (of_string " Hi ") [] [] eq_refl))).
Defined.

(** No effect of the log is a call into the recognition engine. *)
Definition no_rec_engine (l : list effect) : bool :=
  forallb (fun e => negb (is_rec_engine e)) l.

Lemma no_rec_engine_app (a b : list effect) :
  no_rec_engine (a ++ b) = no_rec_engine a && no_rec_engine b.
Proof. unfold no_rec_engine. apply forallb_app. Qed.

Lemma handleSend_sync_frame (p : page) :
  recognition (fst (handleSend_sync p)) = recognition p
  /\ mic_rec (fst (handleSend_sync p)) = mic_rec p
  /\ no_rec_engine (log (fst (handleSend_sync p))) = no_rec_engine (log p).
Proof.
  unfold handleSend_sync. destruct (trim (input p)); simpl; [auto|].
  rewrite !no_rec_engine_app. simpl.
  split; [reflexivity|]. split; [reflexivity|].
  destruct (no_rec_engine (log p)); reflexivity.
Qed.

Lemma handleSend_resume_frame (p : page) (r : http) :
  recognition (fst (handleSend_resume p r)) = recognition p
  /\ mic_rec (fst (handleSend_resume p r)) = mic_rec p
  /\ no_rec_engine (log (fst (handleSend_resume p r))) = no_rec_engine (log p).
Proof.
  unfold handleSend_resume. destruct (askServer_resume r); simpl; [|auto].
  destruct (speak_checked p && synth_supported p); simpl;
  rewrite !no_rec_engine_app; simpl;
  (split; [reflexivity|]); (split; [reflexivity|]);
  destruct (no_rec_engine (log p)); reflexivity.
Qed.

(** C8: without speech recognition at startup, the microphone button is
    disabled and titled; pressing or releasing it changes nothing; and no
    event and no response ever makes a call into a recognition engine. *)
Theorem no_recognition_inert (p : page) :
  let p0 := init p false in
  mic_disabled p0 = true
  /\ mic_title p0 = of_string "Voice input not supported in this browser"
  /\ recognition p0 = false
  /\ log p0 = log p
  /\ (forall q, recognition q = false ->
        step q MicDown = (q, None) /\ step q MicUp = (q, None))
  /\ (forall q ev, recognition q = false -> no_rec_engine (log q) = true ->
        recognition (fst (step q ev)) = false
        /\ no_rec_engine (log (fst (step q ev))) = true)
  /\ (forall q r, recognition q = false -> no_rec_engine (log q) = true ->
        recognition (fst (handleSend_resume q r)) = false
        /\ no_rec_engine (log (fst (handleSend_resume q r))) = true).
Proof.
  split; [reflexivity|]. split; [reflexivity|]. split; [reflexivity|].
  split; [reflexivity|].
  split; [|split].
  - intros q H. simpl. rewrite H. split; reflexivity.
  - intros q ev H Hl. destruct ev; cbn -[handleSend_sync with_input jsstr_eqb of_string];
    rewrite ?H; try (split; assumption);
    try (destruct (jsstr_eqb key (of_string "Enter")); [|split; assumption]);
    destruct (handleSend_sync_frame q) as (E1 & _ & E3);
    rewrite E1, E3; split; assumption.
  - intros q r H Hl. destruct (handleSend_resume_frame q r) as (E1 & _ & E3).
    rewrite E1, E3. split; assumption.
Qed.

(** C9: with recognition available, an error or end event of the
    recognition engine clears the recording indicator, leaves the
    transcript unchanged and sends nothing; and the only event that turns
    the indicator on from off is pressing the microphone button (a
    response landing never does). *)
Theorem capture_state_machine (p : page) (Hrec : recognition p = true) :
  (forall ev, ev = RecError \/ ev = RecEnd ->
     mic_rec (fst (step p ev)) = false
     /\ messages (fst (step p ev)) = messages p
     /\ snd (step p ev) = None)
  /\ (forall q ev, mic_rec q = false -> mic_rec (fst (step q ev)) = true -> ev = MicDown)
  /\ (forall q r, mic_rec (fst (handleSend_resume q r)) = mic_rec q).
Proof.
  split; [|split].
  - intros ev [-> | ->]; simpl; rewrite Hrec; simpl; auto.
  - intros q ev H Hon. destruct ev; cbn -[handleSend_sync with_input jsstr_eqb of_string] in Hon;
    try reflexivity;
    try (destruct (jsstr_eqb key (of_string "Enter")));
    try (destruct (recognition q));
    try (destruct results as [|[|text alts] rest]);
    try (rewrite (proj1 (proj2 (handleSend_sync_frame _))) in Hon);
    simpl in Hon; congruence.
  - intros q r. apply handleSend_resume_frame.
Qed.

Lemma capture_state_machine_witness :
  mic_rec (fst (step (set_mic_rec (page0 "" false true) true MicClassAdd) RecError)) = false.
Proof.
  exact (proj1 (proj1 (capture_state_machine (set_mic_rec (page0 "" false true) true MicClassAdd)
                         eq_refl) RecError (or_introl eq_refl))).
Defined.

(** C10: when a send proceeds, the rendered user message and the question
    of the request are the same string, the trimmed input; it is non-empty
    and already trimmed. *)
Theorem sent_question_is_trimmed_input (p p1 : page) (q : jsstr)
  (Hs : handleSend_sync p = (p1, Some q)) :
  q = trim (input p)
  /\ q <> []
  /\ trim q = q
  /\ messages p1 = messages p ++ [(VStr q, User)]
  /\ log p1 = log p ++ [Render (VStr q) User; SetInput []; ask_request q].
Proof.
  destruct (trim (input p)) as [|c l] eqn:E.
  - rewrite (handleSend_sync_blank p E) in Hs. discriminate.
  - assert (Hne : trim (input p) <> []) by (rewrite E; discriminate).
    rewrite (handleSend_sync_send p Hne) in Hs. injection Hs as <- <-.
    rewrite E. split; [reflexivity|]. split; [discriminate|].
    split; [rewrite <- E; apply trim_idem|].
    split; [reflexivity|]. simpl. rewrite <- !app_assoc. reflexivity.
Qed.

Lemma sent_question_is_trimmed_input_witness :
  exists p1, handleSend_sync (page0 " Hi " false true) = (p1, Some (of_string "Hi"))
             /\ trim (of_string "Hi") = of_string "Hi".
Proof.
  eexists. split; [reflexivity|].
  exact (proj1 (proj2 (proj2 (sent_question_is_trimmed_input (page0 " Hi " false true) _
                                (of_string "Hi") eq_refl)))).
Defined.

(** * Further properties of the script *)

Lemma handleSend_sync_cases (p : page) :
  (trim (input p) = [] /\ handleSend_sync p = (p, None))
  \/ (trim (input p) <> [] /\
      handleSend_sync p =
        (emit (with_input (addMsg p (VStr (trim (input p))) User) [])
              (ask_request (trim (input p))), Some (trim (input p)))).
Proof.
  destruct (trim (input p)) eqn:E.
  - left. split; [reflexivity|]. apply handleSend_sync_blank. exact E.
  - right. assert (H : trim (input p) <> []) by (rewrite E; discriminate).
    split; [discriminate|]. rewrite <- E. apply handleSend_sync_send. exact H.
Qed.



(** A response body that is JSON [null] makes [data.answer] throw: the send
    rejects with a TypeError after the user message, and no bot message is
    rendered. *)
Theorem null_body_rejects (p : page)
  (Hq : trim (input p) <> []) :
  snd (handleSend p (Reply (Some VNull))) = Throw TypeError
  /\ messages (fst (handleSend p (Reply (Some VNull))))
     = messages p ++ [(VStr (trim (input p)), User)].
Proof.
  rewrite (handleSend_send p _ Hq). simpl. split; reflexivity.
Qed.

Lemma null_body_rejects_witness :
  snd (handleSend (page0 "Hi" false true) (Reply (Some VNull))) = Throw TypeError.
Proof.
  exact (proj1 (null_body_rejects (page0 "Hi" false true) ltac:(discriminate))).
Defined.

(** A body that is JSON but not an object (boolean, number, string,
    array) has no [answer] property: the fallback string is returned. *)
Theorem non_object_body_fallback (data : value)
  (Hd : match data with VBool _ | VNum _ | VStr _ | VArr _ => True | _ => False end) :
  askServer_resume (Reply (Some data)) = Ok (VStr fallback).
Proof. destruct data; try contradiction; reflexivity. Qed.

Lemma non_object_body_fallback_witness :
  askServer_resume (Reply (Some (VArr []))) = Ok (VStr fallback).
Proof. exact (non_object_body_fallback (VArr []) I). Defined.

(** A truthy [answer] of any type (a number, [true], an object, not only a
    string) is returned as it is, and becomes the bot message. *)
Theorem truthy_answer_returned (data a : value) (p : page)
  (Ha : get_prop data (of_string "answer") = Ok a) (Ht : truthy a = true)
  (Hq : trim (input p) <> []) :
  askServer_resume (Reply (Some data)) = Ok a
  /\ messages (fst (handleSend p (Reply (Some data))))
     = messages p ++ [(VStr (trim (input p)), User); (a, Bot)].
Proof.
  assert (Hr : askServer_resume (Reply (Some data)) = Ok a)
    by (unfold askServer_resume; rewrite Ha, Ht; reflexivity).
  split; [exact Hr|].
  rewrite (handleSend_send p _ Hq). unfold handleSend_resume. rewrite Hr.
  simpl. destruct (speak_checked p && synth_supported p); simpl;
  rewrite <- app_assoc; reflexivity.
Qed.

Lemma truthy_answer_returned_witness :
  messages (fst (handleSend (page0 "Hi" false true)
                  (Reply (Some (VObj [(of_string "answer", VNum 42)])))))
  = [(VStr (of_string "Hi"), User); (VNum 42, Bot)].
Proof.
  exact (proj2 (truthy_answer_returned (VObj [(of_string "answer", VNum 42)]) (VNum 42)
                  (page0 "Hi" false true) eq_refl eq_refl ltac:(discriminate))).
Defined.





(** A recognised transcript that is blank is written into the input field
    and left there: no message, no request. *)
Theorem blank_result_kept_in_input (p : page) (t : jsstr)
  (alts : list jsstr) (rest : list (list jsstr))
  (Hrec : recognition p = true) (Ht : trim t = []) :
  step p (RecResult ((t :: alts) :: rest)) = (with_input p t, None)
  /\ input (with_input p t) = t
  /\ messages (with_input p t) = messages p.
Proof.
  simpl. rewrite Hrec. rewrite handleSend_sync_blank; [|exact Ht].
  repeat split.
Qed.

Lemma blank_result_kept_in_input_witness :
  input (fst (step (page0 "" false true) (RecResult [[of_string "  "]]))) = of_string "  ".
Proof.
  rewrite (proj1 (blank_result_kept_in_input (page0 "" false true) (of_string "  ") [] []
                    eq_refl eq_refl)).
  reflexivity.
Defined.

Local Open Scope nat_scope.

(** The messages rendered by a log of effects, in order. *)
Fixpoint renders (l : list effect) : list (value * author) :=
  match l with
  | [] => []
  | Render t w :: l' => (t, w) :: renders l'
  | _ :: l' => renders l'
  end.

Lemma renders_app (a b : list effect) : renders (a ++ b) = renders a ++ renders b.
Proof.
  induction a as [|e a IH]; [reflexivity|]. destruct e; simpl; rewrite ?IH; reflexivity.
Qed.

(** Number of utterances handed to the speech engine in a log. *)
Fixpoint speak_count (l : list effect) : nat :=
  match l with
  | [] => 0
  | SynthSpeak _ _ :: l' => S (speak_count l')
  | _ :: l' => speak_count l'
  end.

Lemma speak_count_app (a b : list effect) :
  speak_count (a ++ b) = speak_count a + speak_count b.
Proof.
  induction a as [|e a IH]; [reflexivity|]. destruct e; simpl; rewrite ?IH; reflexivity.
Qed.

(** What a step adds to the log, as a list suffix. *)
Lemma step_log_suffix (p : page) (ev : event) :
  exists added, log (fst (step p ev)) = log p ++ added
    /\ messages (fst (step p ev)) = messages p ++ renders added
    /\ speak_count added = 0
    /\ (renders added = [] \/ exists q, renders added = [(VStr q, User)]).
Proof.
  assert (Hs : forall p', exists added,
             log (fst (handleSend_sync p')) = log p' ++ added
             /\ messages (fst (handleSend_sync p')) = messages p' ++ renders added
             /\ speak_count added = 0
             /\ (renders added = [] \/ exists q, renders added = [(VStr q, User)])).
  { intros p'. destruct (handleSend_sync_cases p') as [[_ ->] | [_ ->]].
    - exists []. rewrite !app_nil_r. auto.
    - eexists. simpl. rewrite <- !app_assoc. split; [reflexivity|].
      split; [reflexivity|]. split; [reflexivity|]. right. eexists. reflexivity. }
  assert (Hnone : exists added, log p = log p ++ added
             /\ messages p = messages p ++ renders added
             /\ speak_count added = 0
             /\ (renders added = [] \/ exists q, renders added = [(VStr q, User)]))
    by (exists []; rewrite !app_nil_r; auto).
  destruct ev; unfold step.
  - apply Hs.
  - destruct (jsstr_eqb key (of_string "Enter")); [apply Hs | exact Hnone].
  - destruct (recognition p); [|exact Hnone].
    exists [MicClassAdd; RecStart]. simpl. rewrite <- app_assoc, app_nil_r. auto.
  - destruct (recognition p); [|exact Hnone].
    exists [RecStop]. simpl. rewrite app_nil_r. auto.
  - destruct (recognition p); [|exact Hnone].
    destruct results as [|[|text alts] rest]; try exact Hnone.
    destruct (Hs (with_input p text)) as (added & E1 & E2 & E3 & E4).
    exists (SetInput text :: added). simpl in E1, E2 |- *.
    rewrite E1, E2, <- app_assoc. auto.
  - destruct (recognition p); [|exact Hnone].
    exists [MicClassRemove]. simpl. rewrite app_nil_r. auto.
  - destruct (recognition p); [|exact Hnone].
    exists [MicClassRemove]. simpl. rewrite app_nil_r. auto.
Qed.

Lemma resume_log_suffix (p : page) (r : http) :
  exists added, log (fst (handleSend_resume p r)) = log p ++ added
    /\ messages (fst (handleSend_resume p r)) = messages p ++ renders added
    /\ speak_count added <= 1
    /\ (renders added = [] \/ exists a, renders added = [(a, Bot)]).
Proof.
  unfold handleSend_resume. destruct (askServer_resume r) as [ans|e].
  - simpl. destruct (speak_checked p && synth_supported p); simpl.
    + exists [Render ans Bot; SynthCancel; SynthSpeak ans en_IN].
      rewrite <- !app_assoc. simpl. split; [reflexivity|].
      split; [reflexivity|]. split; [lia|]. right. eexists. reflexivity.
    + exists [Render ans Bot]. split; [reflexivity|].
      split; [reflexivity|]. split; [simpl; lia|]. right. eexists. reflexivity.
  - exists []. simpl. rewrite !app_nil_r. split; [reflexivity|].
    split; [reflexivity|]. split; [lia|]. left. reflexivity.
Qed.

(** The transcript is exactly the sequence of messages the script has
    rendered: if it is so before, it stays so after any event handler and
    after any response lands. *)
Theorem transcript_is_rendered_log (p : page)
  (Hinv : messages p = renders (log p)) :
  (forall ev, messages (fst (step p ev)) = renders (log (fst (step p ev))))
  /\ (forall r, messages (fst (handleSend_resume p r))
                = renders (log (fst (handleSend_resume p r)))).
Proof.
  split.
  - intros ev. destruct (step_log_suffix p ev) as (added & E1 & E2 & _).
    rewrite E1, E2, renders_app, Hinv. reflexivity.
  - intros r. destruct (resume_log_suffix p r) as (added & E1 & E2 & _).
    rewrite E1, E2, renders_app, Hinv. reflexivity.
Qed.

Lemma transcript_is_rendered_log_witness :
  messages (fst (step (page0 "Hi" false true) SendClick))
  = renders (log (fst (step (page0 "Hi" false true) SendClick))).
Proof. exact (proj1 (transcript_is_rendered_log (page0 "Hi" false true) eq_refl) SendClick). Defined.

(** The transcript is append-only: an event handler keeps every message
    and adds at most one, a user message; a landing response keeps every
    message and adds at most one, a bot message. *)
Theorem transcript_append_only (p : page) :
  (forall ev, messages (fst (step p ev)) = messages p
              \/ exists q, messages (fst (step p ev)) = messages p ++ [(VStr q, User)])
  /\ (forall r, messages (fst (handleSend_resume p r)) = messages p
                \/ exists a, messages (fst (handleSend_resume p r)) = messages p ++ [(a, Bot)]).
Proof.
  split.
  - intros ev. destruct (step_log_suffix p ev) as (added & _ & E2 & _ & [E4 | [q E4]]);
    rewrite E2, E4; [left; apply app_nil_r | right; exists q; reflexivity].
  - intros r. destruct (resume_log_suffix p r) as (added & _ & E2 & _ & [E4 | [a E4]]);
    rewrite E2, E4; [left; apply app_nil_r | right; exists a; reflexivity].
Qed.

(** Speech output happens only when a response lands, at most one
    utterance per response, and none unless the checkbox is checked and
    synthesis is supported; no event handler ever speaks. *)
Theorem speech_only_on_answer (p : page) :
  (forall ev, speak_count (log (fst (step p ev))) = speak_count (log p))
  /\ (forall r, speak_count (log (fst (handleSend_resume p r))) <= speak_count (log p) + 1)
  /\ (forall r, speak_checked p && synth_supported p = false ->
        speak_count (log (fst (handleSend_resume p r))) = speak_count (log p)).
Proof.
  split; [|split].
  - intros ev. destruct (step_log_suffix p ev) as (added & E1 & _ & E3 & _).
    rewrite E1, speak_count_app, E3. lia.
  - intros r. destruct (resume_log_suffix p r) as (added & E1 & _ & E3 & _).
    rewrite E1, speak_count_app. lia.
  - intros r H. unfold handleSend_resume. destruct (askServer_resume r) as [ans|e].
    + simpl. rewrite H. simpl. rewrite speak_count_app. simpl. lia.
    + reflexivity.
Qed.

(** The user typing [t] into the input field (not an effect of the
    script, so nothing is logged). *)
Definition type_text (p : page) (t : jsstr) : page :=
  {| messages := messages p; input := t; speak_checked := speak_checked p;
     synth_supported := synth_supported p; recognition := recognition p;
     mic_rec := mic_rec p; mic_disabled := mic_disabled p;
     mic_title := mic_title p; log := log p |}.

(** Two overlapping sends: a second question sent before the first
    response lands.  Both user messages come first, then the two answers
    in the order their responses land, four messages in all. *)
Theorem overlapping_sends (p : page) (t : jsstr) (r1 r2 : http) (a1 a2 : value)
  (Hq1 : trim (input p) <> []) (Hq2 : trim t <> [])
  (Hr1 : askServer_resume r1 = Ok a1) (Hr2 : askServer_resume r2 = Ok a2) :
  let p2 := fst (handleSend_sync (type_text (fst (handleSend_sync p)) t)) in
  messages (fst (handleSend_resume (fst (handleSend_resume p2 r1)) r2))
  = messages p ++ [(VStr (trim (input p)), User); (VStr (trim t), User);
                   (a1, Bot); (a2, Bot)].
Proof.
  intros p2. unfold p2.
  rewrite (handleSend_sync_send p Hq1).
  rewrite (handleSend_sync_send (type_text _ t) Hq2).
  unfold handleSend_resume. rewrite Hr1. simpl.
  destruct (speak_checked p && synth_supported p); simpl; rewrite Hr2; simpl;
  try (destruct (speak_checked p && synth_supported p)); simpl;
  rewrite <- !app_assoc; reflexivity.
Qed.

Lemma overlapping_sends_witness :
  messages (fst (handleSend_resume
     (fst (handleSend_resume
        (fst (handleSend_sync (type_text (fst (handleSend_sync (page0 "Hi" false true)))
                                         (of_string "Bye"))))
        hello_reply)) hello_reply))
  = [(VStr (of_string "Hi"), User); (VStr (of_string "Bye"), User);
     (VStr (of_string "Hello"), Bot); (VStr (of_string "Hello"), Bot)].
Proof.
  exact (overlapping_sends (page0 "Hi" false true) (of_string "Bye") hello_reply hello_reply
           (VStr (of_string "Hello")) (VStr (of_string "Hello"))
           ltac:(discriminate) ltac:(discriminate) eq_refl eq_refl).
Defined.

(** Number of requests sent in a log. *)
Fixpoint fetch_count (l : list effect) : nat :=
  match l with
  | [] => 0
  | Fetch _ _ _ :: l' => S (fetch_count l')
  | _ :: l' => fetch_count l'
  end.

Lemma fetch_count_app (a b : list effect) :
  fetch_count (a ++ b) = fetch_count a + fetch_count b.
Proof.
  induction a as [|e a IH]; [reflexivity|]. destruct e; simpl; rewrite ?IH; reflexivity.
Qed.

(** When a response lands, the input field is left as it is (text typed
    while waiting survives) and no new request is sent. *)
Theorem resume_keeps_input (p : page) (r : http) :
  input (fst (handleSend_resume p r)) = input p
  /\ fetch_count (log (fst (handleSend_resume p r))) = fetch_count (log p).
Proof.
  unfold handleSend_resume. destruct (askServer_resume r) as [ans|e]; [|split; reflexivity].
  simpl. destruct (speak_checked p && synth_supported p); simpl;
  rewrite !fetch_count_app; simpl; split; [reflexivity|lia|reflexivity|lia].
Qed.
